(** * Sonoff outlet firmware (main/main.c): the device state coordinator

    A shallow embedding of [main/main.c] and [main/config.h].  The C
    globals ([switch_on], [initialized], [name], [status]) and the state of
    the collaborators the handlers talk to (GPIO pins, the status LED, the
    Wi-Fi and pairing stores, the task list) are gathered in one record,
    [world].  Every C function is a computation in a small state monad over
    [world]; every command issued to a collaborator is appended to a
    chronological [trace], so that ordering and "exactly once" statements
    can be read off the trace.  One [world] covers one process lifetime,
    from power-on to the restart request. *)

From Stdlib Require Import ZArith List String Ascii Bool Lia.
From stdpp Require Import base gmap sets list strings.

Local Open Scope Z_scope.

(** ** config.h *)

Definition LED_GPIO : Z := 13.
Definition LED_ACTIVE_LEVEL : Z := 0.
Definition RELAY_GPIO : Z := 12.
Definition RELAY_ACTIVE_LEVEL : Z := 1.
Definition BUTTON_GPIO : Z := 0.
Definition BUTTON_ACTIVE_LEVEL : Z := 0.
Definition ACCESSORY_NAME : string := "Sonoff Outlet".
Definition ACCESSORY_SETUP_CODE : string := "052-58-476".
Definition WIFI_AP_NAME : string := "sonoff-outlet".
Definition WIFI_AP_PASSWORD : string := "k8xYngeW".

(** ** Data of main.c *)

Definition relay_gpio : Z := RELAY_GPIO.
Definition led_gpio : Z := LED_GPIO.
Definition button_gpio : Z := BUTTON_GPIO.

(** The six [led_status_pattern_t] globals.  C code passes them by address,
    so a pattern is identified by its name; [intervals] gives the signed
    durations of its initialiser. *)
Inductive led_status_pattern_t :=
| mode_normal
| mode_connecting_to_wifi
| mode_no_wifi_config
| mode_unpaired
| mode_reset
| mode_identify.

Definition intervals (p : led_status_pattern_t) : list Z :=
  match p with
  | mode_normal => [100; -2900]
  | mode_connecting_to_wifi => [100; -100; 100; -2700]
  | mode_no_wifi_config => [2000; -2000]
  | mode_unpaired => [100; -100; 800; -1000]
  | mode_reset => [100; -100; 100; -100; 100; -4500]
  | mode_identify =>
      [100; -100; 100; -350; 100; -100; 100; -350; 100; -100; 100; -2500]
  end.

#[global] Instance led_status_pattern_eq_dec : EqDecision led_status_pattern_t.
Proof. solve_decision. Defined.

(** [button_event_t] is declared in button.h, outside this repository.  The
    source names three enumerators; every other value of the enum reaches
    the [default:] label and is kept with its integer code. *)
Inductive button_event_t :=
| button_event_single_press
| button_event_double_press
| button_event_long_press
| button_event_other (code : Z).

(** [homekit_event_t] is declared in homekit/homekit.h, outside this
    repository.  The source names two enumerators. *)
Inductive homekit_event_t :=
| HOMEKIT_EVENT_PAIRING_ADDED
| HOMEKIT_EVENT_PAIRING_REMOVED
| HOMEKIT_EVENT_OTHER (code : Z).

(** Modelled from the spec: the declaration of [wifi_config_event_t]
    (wifi_config.h) is not under the source tree.  The source names the
    enumerator [WIFI_CONFIG_CONNECTED]; the two other provisioning statuses
    are the ones the specification lists, Unconfigured and Connecting. *)
Inductive wifi_config_event_t :=
| WIFI_CONFIG_UNCONFIGURED
| WIFI_CONFIG_CONNECTING
| WIFI_CONFIG_CONNECTED.

Inductive gpio_direction_t := GPIO_INPUT | GPIO_OUTPUT.

#[global] Instance button_event_eq_dec : EqDecision button_event_t.
Proof. solve_decision. Defined.
#[global] Instance homekit_event_eq_dec : EqDecision homekit_event_t.
Proof. solve_decision. Defined.
#[global] Instance wifi_config_event_eq_dec : EqDecision wifi_config_event_t.
Proof. solve_decision. Defined.

(** Task entry points handed to [xTaskCreate]. *)
Inductive task_fn := task_reset_configuration.

(** ** Commands issued to collaborators *)

Inductive call :=
| call_uart_set_baud (uart baud : Z)
| call_gpio_enable (pin : Z) (dir : gpio_direction_t)
| call_gpio_write (pin : Z) (level : Z)
| call_led_status_init (pin : Z) (active_level : Z)
| call_led_status_set (p : led_status_pattern_t)
| call_led_status_signal (p : led_status_pattern_t)
| call_printf (fmt : string) (args : list Z)
| call_vTaskDelay (ticks : Z)
| call_vTaskDelete_self
| call_xTaskCreate (fn : task_fn) (name : string) (stack prio : Z)
| call_button_create (pin : Z) (active_high : bool)
    (max_repeat_presses long_press_time : Z)
| call_wifi_config_init2 (ap_name ap_password : string)
| call_wifi_config_reset
| call_homekit_server_init (password : string)
| call_homekit_server_reset
| call_homekit_characteristic_notify (v : bool)
| call_ota_tftp_init_server (port : Z)
| call_sdk_system_restart.

(** ** The world *)

Record world := World {
  (* globals of main.c *)
  switch_on : bool;                         (* switch_on.value.bool_value *)
  initialized : bool;
  name : string;                            (* name.value *)
  (* collaborators *)
  gpio_dir : gmap Z gpio_direction_t;
  gpio_level : gmap Z Z;
  led_pattern : option led_status_pattern_t;  (* persistent pattern of status *)
  wifi_ssid : option string;                (* stored provisioning data *)
  pairings : gset string;                   (* stored pairings *)
  macaddr : list Z;                         (* station MAC, six bytes *)
  button_create_rc : Z;                     (* what button_create will return *)
  tasks : list task_fn;                     (* created, not yet run *)
  trace : list call
}.

(** What the hardware holds when the process starts. *)
Record environment := Environment {
  env_wifi_ssid : option string;
  env_pairings : gset string;
  env_macaddr : list Z;
  env_button_create_rc : Z
}.

(** Process start: the globals have their static initialisers,
    [switch_on = HOMEKIT_CHARACTERISTIC_(ON, false, ...)] and
    [initialized = false]. *)
Definition power_on (e : environment) : world :=
  {| switch_on := false;
     initialized := false;
     name := ACCESSORY_NAME;
     gpio_dir := ∅;
     gpio_level := ∅;
     led_pattern := None;
     wifi_ssid := env_wifi_ssid e;
     pairings := env_pairings e;
     macaddr := env_macaddr e;
     button_create_rc := env_button_create_rc e;
     tasks := [];
     trace := [] |}.

(** ** State monad *)

Definition M (A : Type) : Type := world -> A * world.

#[global] Instance M_ret : MRet M := fun A (a : A) w => (a, w).
#[global] Instance M_bind : MBind M :=
  fun A B (f : A -> M B) (m : M A) w => let (a, w') := m w in f a w'.

Definition get {A} (f : world -> A) : M A := fun w => (f w, w).
Definition modify (f : world -> world) : M unit := fun w => (tt, f w).
Definition exec {A} (m : M A) (w : world) : world := snd (m w).

(** Field updates. *)
Definition set_switch_on (b : bool) (w : world) : world :=
  World b (initialized w) (name w) (gpio_dir w) (gpio_level w) (led_pattern w)
    (wifi_ssid w) (pairings w) (macaddr w) (button_create_rc w) (tasks w)
    (trace w).
Definition set_initialized (b : bool) (w : world) : world :=
  World (switch_on w) b (name w) (gpio_dir w) (gpio_level w) (led_pattern w)
    (wifi_ssid w) (pairings w) (macaddr w) (button_create_rc w) (tasks w)
    (trace w).
Definition set_name (s : string) (w : world) : world :=
  World (switch_on w) (initialized w) s (gpio_dir w) (gpio_level w)
    (led_pattern w) (wifi_ssid w) (pairings w) (macaddr w)
    (button_create_rc w) (tasks w) (trace w).
Definition set_gpio_dir (d : gmap Z gpio_direction_t) (w : world) : world :=
  World (switch_on w) (initialized w) (name w) d (gpio_level w)
    (led_pattern w) (wifi_ssid w) (pairings w) (macaddr w)
    (button_create_rc w) (tasks w) (trace w).
Definition set_gpio_level (l : gmap Z Z) (w : world) : world :=
  World (switch_on w) (initialized w) (name w) (gpio_dir w) l
    (led_pattern w) (wifi_ssid w) (pairings w) (macaddr w)
    (button_create_rc w) (tasks w) (trace w).
Definition set_led_pattern (p : option led_status_pattern_t) (w : world)
  : world :=
  World (switch_on w) (initialized w) (name w) (gpio_dir w) (gpio_level w) p
    (wifi_ssid w) (pairings w) (macaddr w) (button_create_rc w) (tasks w)
    (trace w).
Definition set_wifi_ssid (s : option string) (w : world) : world :=
  World (switch_on w) (initialized w) (name w) (gpio_dir w) (gpio_level w)
    (led_pattern w) s (pairings w) (macaddr w) (button_create_rc w) (tasks w)
    (trace w).
Definition set_pairings (p : gset string) (w : world) : world :=
  World (switch_on w) (initialized w) (name w) (gpio_dir w) (gpio_level w)
    (led_pattern w) (wifi_ssid w) p (macaddr w) (button_create_rc w) (tasks w)
    (trace w).
Definition set_tasks (t : list task_fn) (w : world) : world :=
  World (switch_on w) (initialized w) (name w) (gpio_dir w) (gpio_level w)
    (led_pattern w) (wifi_ssid w) (pairings w) (macaddr w)
    (button_create_rc w) t (trace w).
Definition set_trace (t : list call) (w : world) : world :=
  World (switch_on w) (initialized w) (name w) (gpio_dir w) (gpio_level w)
    (led_pattern w) (wifi_ssid w) (pairings w) (macaddr w)
    (button_create_rc w) (tasks w) t.

(** The empty statement. *)
Definition skip : M unit := mret tt.

(** Record a command at the end of the trace. *)
Definition emit (c : call) : M unit :=
  modify (fun w => set_trace (trace w ++ [c]) w).

(** ** Collaborators

    The libraries below are not part of this repository.  Each is modelled
    by the command it leaves in the trace and by its documented effect on
    the collaborator's state.  Queries leave no command. *)

Definition uart_set_baud (uart baud : Z) : M unit :=
  emit (call_uart_set_baud uart baud).

Definition gpio_enable (pin : Z) (dir : gpio_direction_t) : M unit :=
  emit (call_gpio_enable pin dir);;
  modify (fun w => set_gpio_dir (<[pin := dir]> (gpio_dir w)) w).

Definition gpio_write (pin : Z) (level : Z) : M unit :=
  emit (call_gpio_write pin level);;
  modify (fun w => set_gpio_level (<[pin := level]> (gpio_level w)) w).

(** [status = led_status_init(...)]: a fresh indicator, no pattern yet. *)
Definition led_status_init (pin active_level : Z) : M unit :=
  emit (call_led_status_init pin active_level);;
  modify (set_led_pattern None).

(** [led_status_set(status, &p)] replaces the persistent pattern. *)
Definition led_status_set (p : led_status_pattern_t) : M unit :=
  emit (call_led_status_set p);;
  modify (set_led_pattern (Some p)).

(** [led_status_signal(status, &p)] plays [p] once; the driver then resumes
    the persistent pattern, which is not touched. *)
Definition led_status_signal (p : led_status_pattern_t) : M unit :=
  emit (call_led_status_signal p).

Definition printf (fmt : string) (args : list Z) : M unit :=
  emit (call_printf fmt args).

Definition vTaskDelay (ticks : Z) : M unit := emit (call_vTaskDelay ticks).

(** [vTaskDelete(NULL)]: the running task ends itself. *)
Definition vTaskDelete_NULL : M unit := emit call_vTaskDelete_self.

(** [xTaskCreate]: the new task is queued; the source ignores the result. *)
Definition xTaskCreate (fn : task_fn) (task_name : string) (stack prio : Z)
  : M unit :=
  emit (call_xTaskCreate fn task_name stack prio);;
  modify (fun w => set_tasks (tasks w ++ [fn]) w).

Definition button_create (pin : Z) (active_high : bool)
    (max_repeat_presses long_press_time : Z) : M Z :=
  emit (call_button_create pin active_high max_repeat_presses long_press_time);;
  get button_create_rc.

Definition wifi_config_init2 (ap_name ap_password : string) : M unit :=
  emit (call_wifi_config_init2 ap_name ap_password).

(** [wifi_config_get(&ssid, NULL)]: the stored SSID, [None] for NULL. *)
Definition wifi_config_get : M (option string) := get wifi_ssid.

(** [wifi_config_reset()] erases the stored provisioning data. *)
Definition wifi_config_reset : M unit :=
  emit call_wifi_config_reset;;
  modify (set_wifi_ssid None).

Definition homekit_server_init (password : string) : M unit :=
  emit (call_homekit_server_init password).

(** [homekit_server_reset()] erases the stored pairings. *)
Definition homekit_server_reset : M unit :=
  emit call_homekit_server_reset;;
  modify (set_pairings ∅).

Definition homekit_is_paired : M bool :=
  get (fun w => negb (bool_decide (pairings w = ∅))).

Definition homekit_characteristic_notify (v : bool) : M unit :=
  emit (call_homekit_characteristic_notify v).

Definition ota_tftp_init_server (port : Z) : M unit :=
  emit (call_ota_tftp_init_server port).

Definition sdk_system_restart : M unit := emit call_sdk_system_restart.

Definition sdk_wifi_get_macaddr : M (list Z) := get macaddr.

(** ** main.c *)

Section Main.

(** Constants of headers outside this repository: [TFTP_PORT] (ota-tftp.h)
    and [portTICK_PERIOD_MS] (FreeRTOS). *)
Variable TFTP_PORT : Z.
Variable portTICK_PERIOD_MS : Z.

Definition relay_write (on : bool) : M unit :=
  gpio_write relay_gpio (if on then 1 else 0).

Definition reset_configuration_task : M unit :=
  (* Flash the LED first before we start the reset *)
  led_status_signal mode_reset;;
  vTaskDelay (500 ÷ portTICK_PERIOD_MS);;

  printf "Resetting Wifi Config\n" [];;
  wifi_config_reset;;

  vTaskDelay (1000 ÷ portTICK_PERIOD_MS);;

  printf "Resetting HomeKit Config\n" [];;
  homekit_server_reset;;

  vTaskDelay (1000 ÷ portTICK_PERIOD_MS);;

  printf "Restarting\n" [];;
  sdk_system_restart;;

  vTaskDelete_NULL.

Definition reset_configuration : M unit :=
  printf "Resetting Sonoff configuration\n" [];;
  xTaskCreate task_reset_configuration "Reset configuration" 256 2.

Definition relay_init : M unit :=
  gpio_enable relay_gpio GPIO_OUTPUT;;
  on ← get switch_on;
  relay_write on.

(** The callback ignores its [on] argument and reads the global. *)
Definition switch_on_callback (on : bool) : M unit :=
  v ← get switch_on;
  relay_write v.

Definition button_callback (event : button_event_t) : M unit :=
  match event with
  | button_event_single_press =>
      printf "Toggling relay\n" [];;
      modify (fun w => set_switch_on (negb (switch_on w)) w);;
      v ← get switch_on;
      relay_write v;;
      v' ← get switch_on;
      homekit_characteristic_notify v'
  | button_event_double_press =>
      printf "Restarting\n" [];;
      sdk_system_restart
  | button_event_long_press =>
      reset_configuration
  | button_event_other code =>
      printf "Unknown button event: %d\n" [code]
  end.

Definition switch_identify : M unit :=
  printf "Switch identify\n" [];;
  led_status_signal mode_identify.

Definition on_homekit_event (event : homekit_event_t) : M unit :=
  if bool_decide (event = HOMEKIT_EVENT_PAIRING_ADDED) then
    led_status_set mode_normal
  else if bool_decide (event = HOMEKIT_EVENT_PAIRING_REMOVED) then
    paired ← homekit_is_paired;
    if negb paired then led_status_set mode_unpaired else skip
  else skip.

Definition on_wifi_config_event (event : wifi_config_event_t) : M unit :=
  is_init ← get initialized;
  if bool_decide (event = WIFI_CONFIG_CONNECTED) && negb is_init then
    is_init' ← get initialized;
    if negb is_init' then
      homekit_server_init ACCESSORY_SETUP_CODE;;
      ota_tftp_init_server TFTP_PORT;;

      modify (set_initialized true);;

      paired ← homekit_is_paired;
      led_status_set (if paired : bool then mode_normal else mode_unpaired)
    else skip
  else skip.

(** ["%02X"] of one byte. *)
Definition hex_digit (n : Z) : ascii :=
  match n with
  | 0 => "0" | 1 => "1" | 2 => "2" | 3 => "3" | 4 => "4" | 5 => "5"
  | 6 => "6" | 7 => "7" | 8 => "8" | 9 => "9" | 10 => "A" | 11 => "B"
  | 12 => "C" | 13 => "D" | 14 => "E" | _ => "F"
  end%char.

Definition hex2 (b : Z) : string :=
  String (hex_digit ((b `mod` 256) / 16))
    (String (hex_digit ((b `mod` 256) `mod` 16)) EmptyString).

Definition create_accessory_name : M unit :=
  mac ← sdk_wifi_get_macaddr;
  let name_value :=
    (ACCESSORY_NAME +:+ "-" +:+ hex2 (nth 3 mac 0) +:+ hex2 (nth 4 mac 0)
       +:+ hex2 (nth 5 mac 0))%string in
  modify (set_name name_value).

Definition wifi_is_configured : M bool :=
  ssid ← wifi_config_get;
  match ssid with
  | None => mret false
  | Some _ => mret true
  end.

Definition user_init : M unit :=
  uart_set_baud 0 115200;;

  relay_init;;
  led_status_init led_gpio LED_ACTIVE_LEVEL;;

  create_accessory_name;;

  rc ← button_create button_gpio (negb (BUTTON_ACTIVE_LEVEL =? 0)) 2 5000;
  (if negb (rc =? 0) then printf "Failed to initialize button\n" []
   else skip);;

  wifi_config_init2 WIFI_AP_NAME WIFI_AP_PASSWORD;;

  configured ← wifi_is_configured;
  led_status_set
    (if configured : bool then mode_connecting_to_wifi
     else mode_no_wifi_config).

(** ** The coordinator as an event-driven system *)

(** The accessory server handles a write to the On characteristic by storing
    the written value in [switch_on.value] and then invoking the
    characteristic's callback. *)
Definition on_attribute_write (v : bool) : M unit :=
  modify (set_switch_on v);;
  switch_on_callback v.

(** The accessory server stores or removes a pairing, then fires the
    matching event. *)
Definition pairing_added (id : string) : M unit :=
  modify (fun w => set_pairings ({[id]} ∪ pairings w) w);;
  on_homekit_event HOMEKIT_EVENT_PAIRING_ADDED.

Definition pairing_removed (id : string) : M unit :=
  modify (fun w => set_pairings (pairings w ∖ {[id]}) w);;
  on_homekit_event HOMEKIT_EVENT_PAIRING_REMOVED.

Definition run_task (t : task_fn) : M unit :=
  match t with
  | task_reset_configuration => reset_configuration_task
  end.

(** The scheduler runs the oldest task that was created and not yet run. *)
Definition run_next_task : M unit :=
  ts ← get tasks;
  match ts with
  | [] => skip
  | t :: ts' => modify (set_tasks ts');; run_task t
  end.

Inductive event :=
| ev_button (e : button_event_t)
| ev_wifi_config (e : wifi_config_event_t)
| ev_homekit (e : homekit_event_t)
| ev_pairing_added (id : string)
| ev_pairing_removed (id : string)
| ev_attribute_write (v : bool)
| ev_identify
| ev_run_task.

#[global] Instance event_eq_dec : EqDecision event.
Proof. solve_decision. Defined.

Definition dispatch (ev : event) : M unit :=
  match ev with
  | ev_button e => button_callback e
  | ev_wifi_config e => on_wifi_config_event e
  | ev_homekit e => on_homekit_event e
  | ev_pairing_added id => pairing_added id
  | ev_pairing_removed id => pairing_removed id
  | ev_attribute_write v => on_attribute_write v
  | ev_identify => switch_identify
  | ev_run_task => run_next_task
  end.

(** Handlers run one at a time, in arrival order. *)
Definition run (evs : list event) (w : world) : world :=
  fold_left (fun w ev => exec (dispatch ev) w) evs w.

(** The worlds reached after each event of [evs], in order. *)
Fixpoint states_after (evs : list event) (w : world) : list world :=
  match evs with
  | [] => []
  | ev :: evs' =>
      let w' := exec (dispatch ev) w in w' :: states_after evs' w'
  end.

(** Process start followed by [user_init]. *)
Definition boot (e : environment) : world := exec user_init (power_on e).

End Main.

(** ** Observations *)

(** The relay is closed when its pin holds [RELAY_ACTIVE_LEVEL]. *)
Definition relay_output (w : world) : bool :=
  bool_decide (gpio_level w !! relay_gpio = Some RELAY_ACTIVE_LEVEL).

(** The events of the attribute/relay path: a single press and a write by a
    remote peer. *)
Definition outlet_event (ev : event) : bool :=
  match ev with
  | ev_button button_event_single_press => true
  | ev_attribute_write _ => true
  | _ => false
  end.

(** Values carried by the outbound notifications of a trace, in order. *)
Definition notify_value (c : call) : option bool :=
  match c with
  | call_homekit_characteristic_notify v => Some v
  | _ => None
  end.

Definition notifies (t : list call) : list bool := omap notify_value t.

(** Calls that start the pairing server or the firmware-update listener. *)
Definition is_server_init (c : call) : bool :=
  match c with
  | call_homekit_server_init _ => true
  | _ => false
  end.

Definition is_ota_init (c : call) : bool :=
  match c with
  | call_ota_tftp_init_server _ => true
  | _ => false
  end.

Definition count_calls (f : call -> bool) (t : list call) : nat :=
  length (List.filter f t).

(** The steps of the reset sequencer, as the specification names them. *)
Inductive sequencer_step :=
| step_signal (p : led_status_pattern_t)
| step_delay (ticks : Z)
| step_erase_provisioning
| step_erase_pairing
| step_restart.

Definition sequencer_view (c : call) : option sequencer_step :=
  match c with
  | call_led_status_signal p => Some (step_signal p)
  | call_vTaskDelay ticks => Some (step_delay ticks)
  | call_wifi_config_reset => Some step_erase_provisioning
  | call_homekit_server_reset => Some step_erase_pairing
  | call_sdk_system_restart => Some step_restart
  | _ => None
  end.

Definition sequencer_steps (t : list call) : list sequencer_step :=
  omap sequencer_view t.

(** Reading ["%02X"] back: the value of a digit is its position among the
    sixteen digits that ["%X"] prints. *)
Definition hex_alphabet : string := "0123456789ABCDEF".

Fixpoint position (c : ascii) (s : string) (i : Z) : option Z :=
  match s with
  | EmptyString => None
  | String c' s' => if Ascii.eqb c c' then Some i else position c s' (i + 1)
  end.

Definition hex_digit_value (c : ascii) : option Z := position c hex_alphabet 0.

Definition unhex2 (s : string) : option Z :=
  match s with
  | String h (String l EmptyString) =>
      hi ← hex_digit_value h; lo ← hex_digit_value l; Some (16 * hi + lo)
  | _ => None
  end.

(** The suffix of the accessory name: the last three bytes of the MAC. *)
Definition mac_suffix (mac : list Z) : list Z :=
  [nth 3 mac 0 `mod` 256; nth 4 mac 0 `mod` 256; nth 5 mac 0 `mod` 256].

(** A pattern made of blinks: an on interval (positive) followed by an off
    interval (negative), repeated. *)
Fixpoint blinks (l : list Z) : option nat :=
  match l with
  | [] => Some O
  | on :: off :: l' =>
      if (0 <? on) && (off <? 0) then S <$> blinks l' else None
  | _ => None
  end.

(** Length of one period of a pattern, in milliseconds. *)
Definition period (p : led_status_pattern_t) : Z :=
  foldr (fun d acc => Z.abs d + acc) 0 (intervals p).

(** Patterns of the two roles the indicator driver offers. *)
Definition persistent_pattern (p : led_status_pattern_t) : bool :=
  match p with
  | mode_normal | mode_connecting_to_wifi | mode_no_wifi_config
  | mode_unpaired => true
  | mode_reset | mode_identify => false
  end.

Definition led_call_ok (c : call) : bool :=
  match c with
  | call_led_status_set p => persistent_pattern p
  | call_led_status_signal p => negb (persistent_pattern p)
  | _ => true
  end.

(** A pin write that is a relay write. *)
Definition gpio_call_ok (c : call) : bool :=
  match c with
  | call_gpio_write pin level =>
      (pin =? relay_gpio) && ((level =? 0) || (level =? 1))
  | _ => true
  end.

Definition is_restart (c : call) : bool :=
  match c with call_sdk_system_restart => true | _ => false end.

Definition is_wifi_reset (c : call) : bool :=
  match c with call_wifi_config_reset => true | _ => false end.

Definition is_pairing_reset (c : call) : bool :=
  match c with call_homekit_server_reset => true | _ => false end.

Definition is_notify (c : call) : bool :=
  match c with call_homekit_characteristic_notify _ => true | _ => false end.

Definition is_single_press (ev : event) : bool :=
  match ev with ev_button button_event_single_press => true | _ => false end.

Definition is_double_press (ev : event) : bool :=
  match ev with ev_button button_event_double_press => true | _ => false end.

Definition is_long_press (ev : event) : bool :=
  match ev with ev_button button_event_long_press => true | _ => false end.

Definition count_events (f : event -> bool) (evs : list event) : nat :=
  length (List.filter f evs).

(** Events under which the pairing store and the pairing events agree: the
    accessory server fires PAIRING_ADDED and PAIRING_REMOVED right after it
    changed the store, and the reset task has not run. *)
Definition store_event (ev : event) : bool :=
  match ev with
  | ev_homekit HOMEKIT_EVENT_PAIRING_ADDED => false
  | ev_homekit HOMEKIT_EVENT_PAIRING_REMOVED => false
  | ev_run_task => false
  | _ => true
  end.

(** What the hardware holds when the process ends, and the process start
    that a restart leads to. *)
Definition hardware_of (w : world) : environment :=
  {| env_wifi_ssid := wifi_ssid w;
     env_pairings := pairings w;
     env_macaddr := macaddr w;
     env_button_create_rc := button_create_rc w |}.

Definition reboot (w : world) : world := boot (hardware_of w).

(** Patterns an initialized coordinator shows. *)
Definition paired_pattern (lp : option led_status_pattern_t) : bool :=
  match lp with
  | Some mode_normal | Some mode_unpaired => true
  | _ => false
  end.

(** ** Concrete runs *)

Definition env_fresh : environment :=
  {| env_wifi_ssid := None;
     env_pairings := ∅;
     env_macaddr := [0x5C; 0xCF; 0x7F; 0x1A; 0x2B; 0x3C];
     env_button_create_rc := 0 |}.

Definition env_configured : environment :=
  {| env_wifi_ssid := Some "home"%string;
     env_pairings := {["A"%string; "B"%string]};
     env_macaddr := [0x5C; 0xCF; 0x7F; 0x1A; 0x2B; 0x3C];
     env_button_create_rc := 0 |}.

Example boot_fresh_trace :
  trace (boot env_fresh) =
    [call_uart_set_baud 0 115200;
     call_gpio_enable 12 GPIO_OUTPUT;
     call_gpio_write 12 0;
     call_led_status_init 13 0;
     call_button_create 0 false 2 5000;
     call_wifi_config_init2 "sonoff-outlet" "k8xYngeW";
     call_led_status_set mode_no_wifi_config].
Proof. reflexivity. Qed.

Example boot_fresh_name : name (boot env_fresh) = "Sonoff Outlet-1A2B3C"%string.
Proof. reflexivity. Qed.

(** ** Proof support *)

(** Unfold the monad and the procedures down to record expressions; the
    operations of the collaborators' maps and sets stay folded. *)
Ltac run_m :=
  cbv [exec mbind M_bind mret M_ret get modify emit skip
       uart_set_baud gpio_enable gpio_write led_status_init led_status_set
       led_status_signal printf vTaskDelay vTaskDelete_NULL xTaskCreate
       button_create wifi_config_init2 wifi_config_get wifi_config_reset
       homekit_server_init homekit_server_reset homekit_is_paired
       homekit_characteristic_notify ota_tftp_init_server sdk_system_restart
       sdk_wifi_get_macaddr
       relay_write reset_configuration_task reset_configuration relay_init
       switch_on_callback button_callback switch_identify
       create_accessory_name wifi_is_configured user_init boot
       on_attribute_write pairing_added pairing_removed run_task
       run_next_task power_on
       env_wifi_ssid env_pairings env_macaddr env_button_create_rc
       set_switch_on set_initialized set_name set_gpio_dir set_gpio_level
       set_led_pattern set_wifi_ssid set_pairings set_tasks set_trace
       switch_on initialized name gpio_dir gpio_level led_pattern wifi_ssid
       pairings macaddr button_create_rc tasks trace snd fst];
  cbn [andb negb orb].

(** Evaluate the comparisons of event codes between enumerators. *)
Ltac decide_enum :=
  repeat match goal with
  | |- context [bool_decide (@eq wifi_config_event_t ?a ?b)] =>
      first [ change (bool_decide (a = b)) with true
            | change (bool_decide (a = b)) with false ]
  | |- context [bool_decide (@eq homekit_event_t ?a ?b)] =>
      first [ change (bool_decide (a = b)) with true
            | change (bool_decide (a = b)) with false ]
  end.

(** Case analysis on an event and a world: one goal per branch a handler
    can take. *)
Ltac dispatch_branches ev w :=
  destruct w as [on ini nm gd gl lp ssid ps mac rc ts tr];
  destruct ev as [[| | |code]|[| |]|[| |code]|id|id|v| |];
  cbn [dispatch];
  unfold pairing_added, pairing_removed;
  unfold on_wifi_config_event, on_homekit_event;
  decide_enum; run_m;
  try (destruct ini; run_m);
  try (destruct ts as [|[] ts]; run_m).

Ltac dispatch_cases ev w :=
  dispatch_branches ev w;
  try match goal with
      | |- context [bool_decide (?s = ∅)] =>
          destruct (bool_decide (s = ∅)) eqn:?; run_m
      end.

(** Bring a trace to the form [t ++ [c1; ...; cn]]. *)
Ltac norm_trace :=
  repeat (rewrite app_nil_r || rewrite <- app_assoc); cbn [app].

Lemma relay_output_insert (m : gmap Z Z) (b : bool) :
  bool_decide (<[relay_gpio := if b then 1 else 0]> m !! relay_gpio
               = Some RELAY_ACTIVE_LEVEL) = b.
Proof.
  rewrite lookup_insert_eq. by destruct b.
Qed.

Lemma relay_output_switch_on_callback (v : bool) (w : world) :
  relay_output (exec (switch_on_callback v) w) = switch_on w.
Proof.
  destruct w. unfold relay_output. run_m. apply relay_output_insert.
Qed.

Lemma switch_on_switch_on_callback (v : bool) (w : world) :
  switch_on (exec (switch_on_callback v) w) = switch_on w.
Proof. by destruct w. Qed.

Lemma relay_output_single_press (w : world) :
  relay_output (exec (button_callback button_event_single_press) w)
  = switch_on (exec (button_callback button_event_single_press) w).
Proof.
  destruct w. unfold relay_output. run_m. apply relay_output_insert.
Qed.

Lemma relay_output_on_attribute_write (v : bool) (w : world) :
  relay_output (exec (on_attribute_write v) w) = v
  /\ switch_on (exec (on_attribute_write v) w) = v.
Proof.
  destruct w. unfold relay_output. run_m. split; [apply relay_output_insert|done].
Qed.

Lemma notifies_app (t1 t2 : list call) :
  notifies (t1 ++ t2) = notifies t1 ++ notifies t2.
Proof. apply omap_app. Qed.

Lemma sequencer_steps_app (t1 t2 : list call) :
  sequencer_steps (t1 ++ t2) = sequencer_steps t1 ++ sequencer_steps t2.
Proof. apply omap_app. Qed.

Lemma count_calls_app (f : call -> bool) (t1 t2 : list call) :
  count_calls f (t1 ++ t2) = (count_calls f t1 + count_calls f t2)%nat.
Proof. unfold count_calls. by rewrite List.filter_app, length_app. Qed.

Lemma relay_output_relay_init (w : world) :
  relay_output (exec relay_init w) = switch_on w.
Proof.
  destruct w. unfold relay_output. run_m. apply relay_output_insert.
Qed.

(** What [user_init] leaves behind, for every environment. *)
Lemma boot_state (e : environment) :
  switch_on (boot e) = false
  /\ initialized (boot e) = false
  /\ tasks (boot e) = []
  /\ gpio_level (boot e) = {[relay_gpio := 0]}
  /\ gpio_dir (boot e) = {[relay_gpio := GPIO_OUTPUT]}
  /\ led_pattern (boot e)
     = Some (match env_wifi_ssid e with
             | Some _ => mode_connecting_to_wifi
             | None => mode_no_wifi_config
             end).
Proof.
  destruct e as [ssid ps mac rc]. run_m.
  destruct (negb (rc =? 0)), ssid; by run_m.
Qed.

Lemma boot_relay_output (e : environment) : relay_output (boot e) = false.
Proof.
  destruct (boot_state e) as (_ & _ & _ & Hlvl & _).
  unfold relay_output. by rewrite Hlvl, lookup_singleton_eq.
Qed.

(** ** Attribute and relay *)

Section Properties.

Variable TFTP_PORT : Z.
Variable portTICK_PERIOD_MS : Z.

Local Abbreviation dispatch := (dispatch TFTP_PORT portTICK_PERIOD_MS).
Local Abbreviation states_after :=
  (states_after TFTP_PORT portTICK_PERIOD_MS).
Local Abbreviation run := (run TFTP_PORT portTICK_PERIOD_MS).

(** C1. For every sequence of single-press button events and external
    attribute writes, started in any world, the relay output equals
    [switch_on.value.bool_value] in the world reached after each event's
    handler has completed. *)
Theorem relay_follows_attribute (evs : list event) (w : world) :
  forallb outlet_event evs = true ->
  Forall (fun w' => relay_output w' = switch_on w') (states_after evs w).
Proof.
  revert w. induction evs as [|ev evs IH]; intros w Hevs; cbn [states_after].
  - constructor.
  - cbn [forallb] in Hevs. apply andb_true_iff in Hevs as [Hev Hevs].
    constructor; [|by apply IH].
    destruct ev as [[]| | | | |v| |]; try discriminate Hev; cbn [dispatch].
    + apply relay_output_single_press.
    + destruct (relay_output_on_attribute_write v w) as [Hr Hs].
      by rewrite Hr, Hs.
Qed.

(** C5. Handling an external attribute write of any value [v] issues one
    command, the relay write, changes nothing but the relay pin (and, in
    the accessory server, the stored attribute), and emits no outbound
    notify; handling a single press emits exactly one outbound notify, which
    carries the toggled attribute value. *)
Theorem echo_suppression (v : bool) (w : world) :
  let w1 := exec (switch_on_callback v) w in
  let w2 := exec (on_attribute_write v) w in
  let w3 := exec (button_callback button_event_single_press) w in
  (w1 = set_gpio_level
          (<[relay_gpio := if switch_on w then 1 else 0]> (gpio_level w))
          (set_trace
             (trace w ++
                [call_gpio_write relay_gpio (if switch_on w then 1 else 0)])
             w)
   /\ notifies (trace w1) = notifies (trace w))
  /\ (trace w2 = trace w ++ [call_gpio_write relay_gpio (if v then 1 else 0)]
      /\ notifies (trace w2) = notifies (trace w)
      /\ relay_output w2 = v
      /\ switch_on w2 = v
      /\ initialized w2 = initialized w
      /\ led_pattern w2 = led_pattern w
      /\ tasks w2 = tasks w)
  /\ (trace w3 = trace w ++
                   [call_printf "Toggling relay\n" [];
                    call_gpio_write relay_gpio
                      (if negb (switch_on w) then 1 else 0);
                    call_homekit_characteristic_notify (negb (switch_on w))]
      /\ notifies (trace w3) = notifies (trace w) ++ [negb (switch_on w)]
      /\ switch_on w3 = negb (switch_on w)).
Proof.
  destruct w as [on ini nm gd gl lp ssid ps mac rc ts tr].
  cbv zeta. unfold relay_output. run_m.
  rewrite !notifies_app, relay_output_insert. cbn.
  norm_trace. by repeat split.
Qed.

(** ** Button gestures *)

(** C8. A button event other than single press, double press and long press
    only logs the unknown gesture: the trace grows by that one log line and
    every other component of the world, among them the attribute value, the
    relay output, the indicator pattern, the initialized flag and the task
    list, is unchanged; no restart and no reset is issued. *)
Theorem unknown_button_event_ignored (event : button_event_t) (w : world) :
  event <> button_event_single_press ->
  event <> button_event_double_press ->
  event <> button_event_long_press ->
  let w' := exec (button_callback event) w in
  (exists code,
     w' = set_trace
            (trace w ++ [call_printf "Unknown button event: %d\n" [code]]) w)
  /\ switch_on w' = switch_on w
  /\ relay_output w' = relay_output w
  /\ led_pattern w' = led_pattern w
  /\ initialized w' = initialized w
  /\ tasks w' = tasks w
  /\ sequencer_steps (trace w') = sequencer_steps (trace w).
Proof.
  intros Hs Hd Hl. destruct event as [| | |code]; try congruence.
  destruct w as [on ini nm gd gl lp ssid ps mac rc ts tr].
  cbv zeta. unfold relay_output. run_m.
  rewrite sequencer_steps_app. cbn. norm_trace.
  repeat split. by exists code.
Qed.

(** C3. A long press only logs and creates the reset task: the handler
    itself performs no sequencer step.  The task it created, whenever and in
    whatever world it runs, issues exactly the commands listed below, which
    in the sequencer's vocabulary read: signal Reset, delay, erase the Wi-Fi
    provisioning configuration, delay, erase the pairing configuration,
    delay, restart.  Each erase comes after the delay that precedes it, the
    restart comes after both erases, and it is issued in every world. *)
Theorem reset_ordering (w w_run : world) :
  let w1 := exec (button_callback button_event_long_press) w in
  let w2 := exec (run_task portTICK_PERIOD_MS task_reset_configuration) w_run in
  (trace w1 = trace w ++
                [call_printf "Resetting Sonoff configuration\n" [];
                 call_xTaskCreate task_reset_configuration
                   "Reset configuration" 256 2]
   /\ tasks w1 = tasks w ++ [task_reset_configuration]
   /\ sequencer_steps (trace w1) = sequencer_steps (trace w))
  /\ (trace w2 = trace w_run ++
                   [call_led_status_signal mode_reset;
                    call_vTaskDelay (500 ÷ portTICK_PERIOD_MS);
                    call_printf "Resetting Wifi Config\n" [];
                    call_wifi_config_reset;
                    call_vTaskDelay (1000 ÷ portTICK_PERIOD_MS);
                    call_printf "Resetting HomeKit Config\n" [];
                    call_homekit_server_reset;
                    call_vTaskDelay (1000 ÷ portTICK_PERIOD_MS);
                    call_printf "Restarting\n" [];
                    call_sdk_system_restart;
                    call_vTaskDelete_self]
      /\ sequencer_steps (trace w2) =
           sequencer_steps (trace w_run) ++
             [step_signal mode_reset;
              step_delay (500 ÷ portTICK_PERIOD_MS);
              step_erase_provisioning;
              step_delay (1000 ÷ portTICK_PERIOD_MS);
              step_erase_pairing;
              step_delay (1000 ÷ portTICK_PERIOD_MS);
              step_restart]
      /\ wifi_ssid w2 = None
      /\ pairings w2 = ∅).
Proof.
  destruct w as [on ini nm gd gl lp ssid ps mac rc ts tr].
  destruct w_run as [on' ini' nm' gd' gl' lp' ssid' ps' mac' rc' ts' tr'].
  cbv zeta. run_m.
  rewrite !sequencer_steps_app. cbn. norm_trace. by repeat split.
Qed.

(** ** Identify *)

(** C9. An identify request logs and plays the Identify pattern as a
    transient signal; the persistent indicator pattern, the attribute value,
    the relay output and the initialized flag, as every component of the
    world but the trace, are unchanged. *)
Theorem switch_identify_transient (w : world) :
  let w' := exec switch_identify w in
  w' = set_trace
         (trace w ++ [call_printf "Switch identify\n" [];
                      call_led_status_signal mode_identify]) w
  /\ led_pattern w' = led_pattern w
  /\ switch_on w' = switch_on w
  /\ relay_output w' = relay_output w
  /\ initialized w' = initialized w.
Proof.
  destruct w as [on ini nm gd gl lp ssid ps mac rc ts tr].
  cbv zeta. unfold relay_output. run_m.
  norm_trace. by repeat split.
Qed.

(** ** Pairing lifecycle *)

Lemma on_homekit_event_added :
  on_homekit_event HOMEKIT_EVENT_PAIRING_ADDED = led_status_set mode_normal.
Proof. reflexivity. Qed.

Lemma on_homekit_event_removed :
  on_homekit_event HOMEKIT_EVENT_PAIRING_REMOVED
  = (paired ← homekit_is_paired;
     if negb paired then led_status_set mode_unpaired else skip).
Proof. reflexivity. Qed.

Lemma on_homekit_event_other (code : Z) :
  on_homekit_event (HOMEKIT_EVENT_OTHER code) = skip.
Proof. reflexivity. Qed.

(** C4. On a PairingAdded event the persistent indicator pattern becomes
    Normal.  On a PairingRemoved event it becomes Unpaired when no pairing
    remains; when at least one pairing remains the pattern, as the whole
    world, is left untouched. *)
Theorem pairing_event_pattern (w : world) :
  let wa := exec (on_homekit_event HOMEKIT_EVENT_PAIRING_ADDED) w in
  let wr := exec (on_homekit_event HOMEKIT_EVENT_PAIRING_REMOVED) w in
  led_pattern wa = Some mode_normal
  /\ (pairings w = ∅ -> led_pattern wr = Some mode_unpaired)
  /\ (pairings w <> ∅ -> led_pattern wr = led_pattern w /\ wr = w).
Proof.
  destruct w as [on ini nm gd gl lp ssid ps mac rc ts tr].
  cbv zeta. rewrite on_homekit_event_added, on_homekit_event_removed.
  run_m. split; [done|]. split; intros Hps.
  - by rewrite bool_decide_eq_true_2.
  - by rewrite bool_decide_eq_false_2.
Qed.

(** ** Provisioning events *)

Lemma on_wifi_config_event_first (w : world) :
  initialized w = false ->
  exec (on_wifi_config_event TFTP_PORT WIFI_CONFIG_CONNECTED) w
  = set_led_pattern
      (Some (if negb (bool_decide (pairings w = ∅)) then mode_normal
             else mode_unpaired))
      (set_initialized true
         (set_trace
            (trace w ++
               [call_homekit_server_init ACCESSORY_SETUP_CODE;
                call_ota_tftp_init_server TFTP_PORT;
                call_led_status_set
                  (if negb (bool_decide (pairings w = ∅)) then mode_normal
                   else mode_unpaired)])
            w)).
Proof.
  destruct w as [on ini nm gd gl lp ssid ps mac rc ts tr].
  intros Hini. cbn in Hini. subst ini.
  unfold on_wifi_config_event. decide_enum. run_m. by norm_trace.
Qed.

Lemma on_wifi_config_event_initialized (event : wifi_config_event_t)
    (w : world) :
  initialized w = true ->
  exec (on_wifi_config_event TFTP_PORT event) w = w.
Proof.
  destruct w as [on ini nm gd gl lp ssid ps mac rc ts tr].
  intros Hini. cbn in Hini. subst ini.
  unfold on_wifi_config_event. run_m. by rewrite andb_false_r.
Qed.

Lemma on_wifi_config_event_not_connected (event : wifi_config_event_t)
    (w : world) :
  event <> WIFI_CONFIG_CONNECTED ->
  exec (on_wifi_config_event TFTP_PORT event) w = w.
Proof.
  destruct w as [on ini nm gd gl lp ssid ps mac rc ts tr].
  intros Hev. destruct event; try congruence.
  - unfold on_wifi_config_event. decide_enum. by run_m.
  - unfold on_wifi_config_event. decide_enum. by run_m.
Qed.

(** C2. Delivering the Connected event [N >= 1] times to an uninitialized
    coordinator leaves the world that one delivery leaves: the pairing
    server and the firmware-update listener are each started exactly once,
    the initialized flag is set, and a Connected event delivered to an
    initialized coordinator changes nothing. *)
Theorem connected_initializes_once (N : nat) (w : world) :
  (1 <= N)%nat ->
  initialized w = false ->
  let connected := exec (on_wifi_config_event TFTP_PORT WIFI_CONFIG_CONNECTED) in
  let w' := Nat.iter N connected w in
  w' = connected w
  /\ connected w' = w'
  /\ initialized w' = true
  /\ trace w' = trace w ++
                  [call_homekit_server_init ACCESSORY_SETUP_CODE;
                   call_ota_tftp_init_server TFTP_PORT;
                   call_led_status_set
                     (if negb (bool_decide (pairings w = ∅)) then mode_normal
                      else mode_unpaired)]
  /\ count_calls is_server_init (trace w')
     = S (count_calls is_server_init (trace w))
  /\ count_calls is_ota_init (trace w')
     = S (count_calls is_ota_init (trace w)).
Proof.
  intros HN Hini. cbv zeta.
  assert (Hone : initialized
            (exec (on_wifi_config_event TFTP_PORT WIFI_CONFIG_CONNECTED) w)
          = true).
  { rewrite on_wifi_config_event_first by done. by destruct w. }
  assert (Hiter : Nat.iter N
            (exec (on_wifi_config_event TFTP_PORT WIFI_CONFIG_CONNECTED)) w
          = exec (on_wifi_config_event TFTP_PORT WIFI_CONFIG_CONNECTED) w).
  { destruct N as [|n]; [lia|]. clear HN.
    induction n as [|n IH]; [done|].
    change (Nat.iter (S (S n)) ?f w) with (f (Nat.iter (S n) f w)).
    rewrite IH. by apply on_wifi_config_event_initialized. }
  rewrite Hiter. split; [done|].
  split; [by apply on_wifi_config_event_initialized|].
  split; [done|].
  rewrite on_wifi_config_event_first by done.
  destruct w as [on ini nm gd gl lp ssid ps mac rc ts tr]. run_m.
  rewrite !count_calls_app. cbn. split; [done|]. split; lia.
Qed.

(** ** The initialized flag *)

Lemma initialized_dispatch (ev : event) (w : world) :
  initialized (exec (dispatch ev) w)
  = initialized w || bool_decide (ev = ev_wifi_config WIFI_CONFIG_CONNECTED).
Proof.
  destruct ev as [e|e|e|id|id|v| |]; cbn [dispatch].
  - rewrite bool_decide_eq_false_2, orb_false_r by done.
    by destruct e, w.
  - destruct e.
    + rewrite on_wifi_config_event_not_connected, bool_decide_eq_false_2 by done.
      by rewrite orb_false_r.
    + rewrite on_wifi_config_event_not_connected, bool_decide_eq_false_2 by done.
      by rewrite orb_false_r.
    + rewrite bool_decide_eq_true_2, orb_true_r by done.
      destruct (initialized w) eqn:Hini.
      * by rewrite on_wifi_config_event_initialized.
      * rewrite on_wifi_config_event_first by done. by destruct w.
  - rewrite bool_decide_eq_false_2, orb_false_r by done.
    destruct w as [on ini nm gd gl lp ssid ps mac rc ts tr].
    destruct e as [| |code].
    + by rewrite on_homekit_event_added.
    + rewrite on_homekit_event_removed. run_m.
      by destruct (bool_decide (ps = ∅)).
    + by rewrite on_homekit_event_other.
  - rewrite bool_decide_eq_false_2, orb_false_r by done.
    unfold pairing_added. rewrite on_homekit_event_added. by destruct w.
  - rewrite bool_decide_eq_false_2, orb_false_r by done.
    unfold pairing_removed. rewrite on_homekit_event_removed.
    destruct w as [on ini nm gd gl lp ssid ps mac rc ts tr]. run_m.
    by destruct (bool_decide (ps ∖ {[id]} = ∅)).
  - rewrite bool_decide_eq_false_2, orb_false_r by done. by destruct w.
  - rewrite bool_decide_eq_false_2, orb_false_r by done. by destruct w.
  - rewrite bool_decide_eq_false_2, orb_false_r by done.
    destruct w as [on ini nm gd gl lp ssid ps mac rc ts tr].
    by destruct ts as [|[] ts].
Qed.

Lemma initialized_states_after (evs : list event) (w : world) :
  initialized w = true ->
  Forall (fun w' => initialized w' = true) (states_after evs w)
  /\ initialized (run evs w) = true.
Proof.
  revert w. induction evs as [|ev evs IH]; intros w Hini.
  - by split; [constructor|].
  - assert (Hstep : initialized (exec (dispatch ev) w) = true).
    { by rewrite initialized_dispatch, Hini. }
    destruct (IH _ Hstep) as [Hall Hrun].
    split; [by constructor|done].
Qed.

(** C10. The initialized flag starts false and is still false when
    [user_init] returns.  A handler that changes it is the handler of the
    Connected provisioning event, and the change is to true.  Once the flag
    is true it is true after every event of every kind, hence after every
    sequence of events. *)
Theorem initialized_monotone (e : environment) (ev : event)
    (evs : list event) (w : world) :
  initialized (power_on e) = false
  /\ initialized (boot e) = false
  /\ (initialized (exec (dispatch ev) w) <> initialized w ->
      ev = ev_wifi_config WIFI_CONFIG_CONNECTED
      /\ initialized (exec (dispatch ev) w) = true)
  /\ (initialized w = true ->
      initialized (exec (dispatch ev) w) = true
      /\ Forall (fun w' => initialized w' = true) (states_after evs w)
      /\ initialized (run evs w) = true).
Proof.
  split; [done|]. split; [apply boot_state|]. split.
  - rewrite initialized_dispatch. intros Hchg.
    destruct (decide (ev = ev_wifi_config WIFI_CONFIG_CONNECTED)) as [->|Hne].
    + split; [done|]. by rewrite bool_decide_eq_true_2, orb_true_r.
    + rewrite bool_decide_eq_false_2, orb_false_r in Hchg by done. done.
  - intros Hini. split; [by rewrite initialized_dispatch, Hini|].
    by apply initialized_states_after.
Qed.

(** ** Attribute and relay, over all events *)

(** Every handler keeps the relay equal to the attribute once they agree. *)
Lemma relay_consistent_dispatch (ev : event) (w : world) :
  relay_output w = switch_on w ->
  relay_output (exec (dispatch ev) w) = switch_on (exec (dispatch ev) w).
Proof.
  intros Hw. destruct ev as [e|e|e|id|id|v| |]; cbn [dispatch].
  - destruct e.
    + apply relay_output_single_press.
    + by destruct w.
    + by destruct w.
    + by destruct w.
  - destruct e.
    + by rewrite on_wifi_config_event_not_connected.
    + by rewrite on_wifi_config_event_not_connected.
    + destruct (initialized w) eqn:Hini.
      * by rewrite on_wifi_config_event_initialized.
      * rewrite on_wifi_config_event_first by done. by destruct w.
  - destruct w as [on ini nm gd gl lp ssid ps mac rc ts tr].
    destruct e as [| |code].
    + by rewrite on_homekit_event_added.
    + rewrite on_homekit_event_removed. unfold relay_output in *. run_m.
      by destruct (bool_decide (ps = ∅)).
    + by rewrite on_homekit_event_other.
  - unfold pairing_added. rewrite on_homekit_event_added. by destruct w.
  - unfold pairing_removed. rewrite on_homekit_event_removed.
    destruct w as [on ini nm gd gl lp ssid ps mac rc ts tr].
    unfold relay_output in *. run_m.
    by destruct (bool_decide (ps ∖ {[id]} = ∅)).
  - by destruct (relay_output_on_attribute_write v w) as [-> ->].
  - by destruct w.
  - destruct w as [on ini nm gd gl lp ssid ps mac rc ts tr].
    by destruct ts as [|[] ts].
Qed.

(** From startup on, the relay equals the attribute after every event. *)
Lemma relay_consistent_from_boot (e : environment) (evs : list event) :
  Forall (fun w' => relay_output w' = switch_on w')
    (states_after evs (boot e)).
Proof.
  assert (Hboot : relay_output (boot e) = switch_on (boot e)).
  { rewrite boot_relay_output. symmetry. apply boot_state. }
  revert Hboot. generalize (boot e) as w.
  induction evs as [|ev evs IH]; intros w Hw; cbn [states_after].
  - constructor.
  - pose proof (relay_consistent_dispatch ev w Hw) as Hstep.
    constructor; [done|by apply IH].
Qed.

(** ** Startup *)

(** C6 (amended). At process start the attribute holds its static
    initialiser, false; nothing is read from storage.  [user_init] makes the
    relay pin an output and writes that value to it, so after startup the
    relay output equals the attribute and is off, and the persistent
    indicator pattern is ConnectingToWifi when provisioning data is stored
    and NoWifiConfig when none is; in particular, with no stored
    provisioning configuration, the relay output is off and the pattern is
    NoWifiConfig. *)
Theorem startup_state (e : environment) :
  switch_on (power_on e) = false
  /\ relay_output (boot e) = switch_on (boot e)
  /\ relay_output (boot e) = false
  /\ gpio_dir (boot e) !! relay_gpio = Some GPIO_OUTPUT
  /\ led_pattern (boot e)
     = Some (match env_wifi_ssid e with
             | Some _ => mode_connecting_to_wifi
             | None => mode_no_wifi_config
             end)
  /\ (env_wifi_ssid e = None ->
      relay_output (boot e) = false
      /\ led_pattern (boot e) = Some mode_no_wifi_config).
Proof.
  destruct (boot_state e) as (Hon & _ & _ & Hlvl & Hdir & Hled).
  pose proof (boot_relay_output e) as Hrelay.
  split; [done|]. split; [by rewrite Hrelay, Hon|]. split; [done|].
  split; [by rewrite Hdir, lookup_singleton_eq|]. split; [done|].
  intros Hssid. split; [done|]. by rewrite Hled, Hssid.
Qed.

(** C7 (amended). While the accessory server is uninitialized the persistent
    pattern NoWifiConfig or ConnectingToWifi is set by the one-time
    evaluation in [user_init] only; a provisioning status event other than
    Connected (Unconfigured, Connecting) changes nothing, whatever the
    world it arrives in. *)
Theorem provisioning_event_not_live (e : environment)
    (event : wifi_config_event_t) (w : world) :
  led_pattern (boot e)
  = Some (match env_wifi_ssid e with
          | Some _ => mode_connecting_to_wifi
          | None => mode_no_wifi_config
          end)
  /\ (event <> WIFI_CONFIG_CONNECTED ->
      exec (on_wifi_config_event TFTP_PORT event) w = w).
Proof.
  split; [apply boot_state|]. apply on_wifi_config_event_not_connected.
Qed.

End Properties.

(** ** The properties on concrete runs

    The SDK values [TFTP_PORT = 69] and [portTICK_PERIOD_MS = 10] are used
    below. *)

Lemma relay_follows_attribute_witness :
  let evs := [ev_button button_event_single_press; ev_attribute_write false;
              ev_attribute_write true; ev_button button_event_single_press] in
  forallb outlet_event evs = true
  /\ Forall (fun w' => relay_output w' = switch_on w')
       (states_after 69 10 evs (boot env_fresh)).
Proof.
  split; [reflexivity|].
  apply (relay_follows_attribute 69 10). reflexivity.
Defined.

Lemma connected_initializes_once_witness :
  (1 <= 3)%nat
  /\ initialized (boot env_configured) = false
  /\ count_calls is_server_init
       (trace (Nat.iter 3
                 (exec (on_wifi_config_event 69 WIFI_CONFIG_CONNECTED))
                 (boot env_configured)))
     = S (count_calls is_server_init (trace (boot env_configured))).
Proof.
  split; [lia|]. split; [reflexivity|].
  apply (connected_initializes_once 69 3 (boot env_configured));
    [lia|reflexivity].
Defined.

Lemma pairing_event_pattern_witness :
  let one_left := set_pairings {["B"%string]} (boot env_configured) in
  let none_left := set_pairings ∅ (boot env_configured) in
  (pairings none_left = ∅
   /\ led_pattern (exec (on_homekit_event HOMEKIT_EVENT_PAIRING_REMOVED)
                     none_left) = Some mode_unpaired)
  /\ (pairings one_left <> ∅
      /\ exec (on_homekit_event HOMEKIT_EVENT_PAIRING_REMOVED) one_left
         = one_left).
Proof.
  cbv zeta. split.
  - split; [reflexivity|].
    apply (pairing_event_pattern (set_pairings ∅ (boot env_configured))).
    reflexivity.
  - assert (Hne : pairings (set_pairings {["B"%string]} (boot env_configured))
                  <> ∅) by (vm_compute; discriminate).
    split; [exact Hne|].
    apply (pairing_event_pattern
             (set_pairings {["B"%string]} (boot env_configured))).
    exact Hne.
Defined.

Lemma unknown_button_event_ignored_witness :
  button_event_other 2 <> button_event_single_press
  /\ button_event_other 2 <> button_event_double_press
  /\ button_event_other 2 <> button_event_long_press
  /\ switch_on (exec (button_callback (button_event_other 2)) (boot env_fresh))
     = switch_on (boot env_fresh).
Proof.
  split; [discriminate|]. split; [discriminate|]. split; [discriminate|].
  apply (unknown_button_event_ignored (button_event_other 2) (boot env_fresh));
    discriminate.
Defined.

Lemma initialized_monotone_witness :
  let connected := ev_wifi_config WIFI_CONFIG_CONNECTED in
  let w := exec (dispatch 69 10 connected) (boot env_configured) in
  let evs := [ev_button button_event_long_press; ev_run_task;
              ev_wifi_config WIFI_CONFIG_UNCONFIGURED; connected;
              ev_pairing_removed "A"; ev_attribute_write true; ev_identify] in
  (initialized (exec (dispatch 69 10 connected) (boot env_fresh))
   <> initialized (boot env_fresh)
   /\ initialized (exec (dispatch 69 10 connected) (boot env_fresh)) = true)
  /\ (initialized w = true /\ initialized (run 69 10 evs w) = true).
Proof.
  cbv zeta. split.
  - assert (Hchg : initialized
                     (exec (dispatch 69 10 (ev_wifi_config WIFI_CONFIG_CONNECTED))
                        (boot env_fresh))
                   <> initialized (boot env_fresh))
      by (vm_compute; discriminate).
    split; [exact Hchg|].
    destruct (initialized_monotone 69 10 env_fresh
                (ev_wifi_config WIFI_CONFIG_CONNECTED) [] (boot env_fresh))
      as (_ & _ & Hstep & _).
    exact (proj2 (Hstep Hchg)).
  - split; [reflexivity|].
    apply (initialized_monotone 69 10 env_fresh ev_identify).
    reflexivity.
Defined.

Lemma startup_state_witness :
  env_wifi_ssid env_fresh = None
  /\ relay_output (boot env_fresh) = false
  /\ led_pattern (boot env_fresh) = Some mode_no_wifi_config.
Proof.
  split; [reflexivity|].
  apply (startup_state env_fresh). reflexivity.
Defined.

Lemma provisioning_event_not_live_witness :
  WIFI_CONFIG_CONNECTING <> WIFI_CONFIG_CONNECTED
  /\ exec (on_wifi_config_event 69 WIFI_CONFIG_CONNECTING) (boot env_fresh)
     = boot env_fresh.
Proof.
  split; [discriminate|].
  apply (provisioning_event_not_live 69 env_fresh). discriminate.
Defined.

(** No startup leaves the relay on: the attribute is false when
    [relay_init] reads it, whatever the hardware stored. *)
Lemma startup_relay_on_unreachable :
  relay_output (boot env_fresh) = false
  /\ ~ exists e : environment, relay_output (boot e) = true.
Proof.
  split; [reflexivity|].
  intros [e Hon]. rewrite boot_relay_output in Hon. discriminate Hon.
Qed.

(** A device started without provisioning data shows NoWifiConfig; the
    Connecting event that follows leaves that pattern in place. *)
Lemma connecting_event_keeps_pattern :
  let w := boot env_fresh in
  let w' := exec (on_wifi_config_event 69 WIFI_CONFIG_CONNECTING) w in
  initialized w = false
  /\ led_pattern w' = Some mode_no_wifi_config
  /\ led_pattern w' <> Some mode_connecting_to_wifi.
Proof.
  cbv zeta. split; [reflexivity|]. split; [reflexivity|]. discriminate.
Qed.

(** A device started with provisioning data shows ConnectingToWifi; an
    Unconfigured event leaves that pattern in place. *)
Example unconfigured_event_keeps_pattern :
  led_pattern (exec (on_wifi_config_event 69 WIFI_CONFIG_UNCONFIGURED)
                 (boot env_configured))
  = Some mode_connecting_to_wifi.
Proof. reflexivity. Qed.

(** Pairings A and B: removing A leaves the pattern, removing B then sets
    Unpaired. *)
Example last_pairing_removed :
  let w0 := exec (on_wifi_config_event 69 WIFI_CONFIG_CONNECTED)
              (boot env_configured) in
  let w1 := exec (pairing_removed "A") w0 in
  let w2 := exec (pairing_removed "B") w1 in
  led_pattern w0 = Some mode_normal
  /\ led_pattern w1 = Some mode_normal
  /\ led_pattern w2 = Some mode_unpaired.
Proof. cbv zeta. repeat split; vm_compute; reflexivity. Qed.

(** A long press followed by the run of the task it created. *)
Example long_press_run :
  trace (run 69 10 [ev_button button_event_long_press; ev_run_task]
           (set_trace [] (boot env_configured)))
  = [call_printf "Resetting Sonoff configuration\n" [];
     call_xTaskCreate task_reset_configuration "Reset configuration" 256 2;
     call_led_status_signal mode_reset;
     call_vTaskDelay 50;
     call_printf "Resetting Wifi Config\n" [];
     call_wifi_config_reset;
     call_vTaskDelay 100;
     call_printf "Resetting HomeKit Config\n" [];
     call_homekit_server_reset;
     call_vTaskDelay 100;
     call_printf "Restarting\n" [];
     call_sdk_system_restart;
     call_vTaskDelete_self].
Proof. reflexivity. Qed.

(** Three Connected events in a row start the servers once. *)
Example connected_three_times :
  trace (run 69 10 (replicate 3 (ev_wifi_config WIFI_CONFIG_CONNECTED))
           (set_trace [] (boot env_fresh)))
  = [call_homekit_server_init "052-58-476";
     call_ota_tftp_init_server 69;
     call_led_status_set mode_unpaired].
Proof. reflexivity. Qed.

(** ** Further properties of main.c *)

(** X1. [user_init] issues the commands below, in this order, for every
    environment: the relay pin is configured and written before the
    indicator is created, and the indicator pattern is set last.  A failing
    [button_create] adds one log line and nothing else: startup goes on to
    Wi-Fi provisioning and to the indicator. *)
Theorem user_init_commands (e : environment) :
  trace (boot e)
  = [call_uart_set_baud 0 115200;
     call_gpio_enable relay_gpio GPIO_OUTPUT;
     call_gpio_write relay_gpio 0;
     call_led_status_init led_gpio LED_ACTIVE_LEVEL;
     call_button_create button_gpio false 2 5000]
    ++ (if env_button_create_rc e =? 0 then []
        else [call_printf "Failed to initialize button\n" []])
    ++ [call_wifi_config_init2 WIFI_AP_NAME WIFI_AP_PASSWORD;
        call_led_status_set
          (match env_wifi_ssid e with
           | Some _ => mode_connecting_to_wifi
           | None => mode_no_wifi_config
           end)].
Proof.
  destruct e as [ssid ps mac rc]. run_m.
  by destruct (rc =? 0), ssid.
Qed.

Lemma boot_stores (e : environment) :
  wifi_ssid (boot e) = env_wifi_ssid e
  /\ pairings (boot e) = env_pairings e
  /\ macaddr (boot e) = env_macaddr e
  /\ button_create_rc (boot e) = env_button_create_rc e.
Proof.
  destruct e as [ssid ps mac rc]. run_m.
  by destruct (negb (rc =? 0)), ssid.
Qed.

Lemma boot_counts (e : environment) :
  count_calls is_server_init (trace (boot e)) = O
  /\ count_calls is_ota_init (trace (boot e)) = O
  /\ count_calls is_restart (trace (boot e)) = O
  /\ count_calls is_wifi_reset (trace (boot e)) = O
  /\ count_calls is_pairing_reset (trace (boot e)) = O
  /\ notifies (trace (boot e)) = []
  /\ forallb gpio_call_ok (trace (boot e)) = true
  /\ forallb led_call_ok (trace (boot e)) = true.
Proof.
  destruct e as [ssid ps mac rc]. run_m.
  by destruct (negb (rc =? 0)), ssid.
Qed.


Section Interleavings.
Variable TFTP_PORT : Z.
Variable portTICK_PERIOD_MS : Z.
Local Abbreviation dispatch := (dispatch TFTP_PORT portTICK_PERIOD_MS).
Local Abbreviation run := (run TFTP_PORT portTICK_PERIOD_MS).

Lemma run_cons (ev : event) (evs : list event) (w : world) :
  run (ev :: evs) w = run evs (exec (dispatch ev) w).
Proof. reflexivity. Qed.

Lemma run_invariant (P : world -> Prop) :
  (forall ev w, P w -> P (exec (dispatch ev) w)) ->
  forall evs w, P w -> P (run evs w).
Proof.
  intros Hstep evs. induction evs as [|ev evs IH]; intros w Hw; [done|].
  rewrite run_cons. apply IH, Hstep, Hw.
Qed.



Lemma server_init_count_dispatch (ev : event) (w : world) :
  count_calls is_server_init (trace w) = (if initialized w then 1 else 0)%nat
  /\ count_calls is_ota_init (trace w) = (if initialized w then 1 else 0)%nat ->
  let w' := exec (dispatch ev) w in
  count_calls is_server_init (trace w') = (if initialized w' then 1 else 0)%nat
  /\ count_calls is_ota_init (trace w') = (if initialized w' then 1 else 0)%nat.
Proof.
  cbv zeta.
  dispatch_cases ev w; intros [H1 H2]; rewrite ?count_calls_app; cbn; lia.
Qed.

(** X2. Over every sequence of events of every kind after startup, the
    pairing server and the firmware-update listener have each been started
    exactly once if the coordinator is initialized and not at all
    otherwise. *)
Theorem servers_started_once (e : environment) (evs : list event) :
  let w := run evs (boot e) in
  count_calls is_server_init (trace w) = (if initialized w then 1 else 0)%nat
  /\ count_calls is_ota_init (trace w) = (if initialized w then 1 else 0)%nat.
Proof.
  cbv zeta.
  apply (run_invariant (fun w =>
    count_calls is_server_init (trace w) = (if initialized w then 1 else 0)%nat
    /\ count_calls is_ota_init (trace w) = (if initialized w then 1 else 0)%nat)).
  - apply server_init_count_dispatch.
  - destruct (boot_counts e) as (-> & -> & _).
    by destruct (boot_state e) as (_ & -> & _).
Qed.




Lemma count_events_cons (f : event -> bool) (ev : event) (evs : list event) :
  count_events f (ev :: evs)
  = ((if f ev then 1 else 0) + count_events f evs)%nat.
Proof. unfold count_events. cbn. by destruct (f ev). Qed.

Lemma reset_accounting_dispatch (ev : event) (w : world) :
  let w' := exec (dispatch ev) w in
  (count_calls is_wifi_reset (trace w') + length (tasks w')
   = count_calls is_wifi_reset (trace w) + length (tasks w)
     + (if is_long_press ev then 1 else 0))%nat
  /\ (count_calls is_pairing_reset (trace w')
        + count_calls is_wifi_reset (trace w)
      = count_calls is_pairing_reset (trace w)
        + count_calls is_wifi_reset (trace w'))%nat
  /\ (count_calls is_restart (trace w') + count_calls is_wifi_reset (trace w)
      = count_calls is_restart (trace w)
        + count_calls is_wifi_reset (trace w')
        + (if is_double_press ev then 1 else 0))%nat.
Proof.
  cbv zeta.
  dispatch_cases ev w; rewrite ?count_calls_app, ?length_app; cbn; lia.
Qed.

Lemma reset_accounting_run (evs : list event) (w : world) :
  let w' := run evs w in
  (count_calls is_wifi_reset (trace w') + length (tasks w')
   = count_calls is_wifi_reset (trace w) + length (tasks w)
     + count_events is_long_press evs)%nat
  /\ (count_calls is_pairing_reset (trace w')
        + count_calls is_wifi_reset (trace w)
      = count_calls is_pairing_reset (trace w)
        + count_calls is_wifi_reset (trace w'))%nat
  /\ (count_calls is_restart (trace w') + count_calls is_wifi_reset (trace w)
      = count_calls is_restart (trace w)
        + count_calls is_wifi_reset (trace w')
        + count_events is_double_press evs)%nat.
Proof.
  cbv zeta. revert w. induction evs as [|ev evs IH]; intros w.
  - cbn. lia.
  - rewrite run_cons, !count_events_cons.
    destruct (reset_accounting_dispatch ev w) as (H1 & H2 & H3).
    destruct (IH (exec (dispatch ev) w)) as (I1 & I2 & I3). lia.
Qed.

(** X4. After any sequence of events from startup, each long press
    accounts for one reset task, run or still pending (a long press during
    a pending reset queues another); a run erases the Wi-Fi configuration
    and the pairings together; and the restarts requested are those of the
    double presses plus one per reset run. *)
Theorem reset_accounting (e : environment) (evs : list event) :
  let w := run evs (boot e) in
  (count_calls is_wifi_reset (trace w) + length (tasks w)
   = count_events is_long_press evs)%nat
  /\ count_calls is_pairing_reset (trace w)
     = count_calls is_wifi_reset (trace w)
  /\ (count_calls is_restart (trace w)
      = count_events is_double_press evs
        + count_calls is_wifi_reset (trace w))%nat.
Proof.
  cbv zeta. destruct (reset_accounting_run evs (boot e)) as (H1 & H2 & H3).
  destruct (boot_counts e) as (_ & _ & Hr & Hw & Hp & _).
  destruct (boot_state e) as (_ & _ & Ht & _).
  rewrite Hr, Hw, Hp, ?Ht in *. cbn in *. lia.
Qed.




Lemma led_roles_dispatch (ev : event) (w : world) :
  forallb led_call_ok (trace w) = true
  /\ (exists p, led_pattern w = Some p /\ persistent_pattern p = true) ->
  let w' := exec (dispatch ev) w in
  forallb led_call_ok (trace w') = true
  /\ (exists p, led_pattern w' = Some p /\ persistent_pattern p = true).
Proof.
  cbv zeta.
  dispatch_cases ev w; intros (Ht & Hp);
    rewrite ?forallb_app, ?Ht; cbn; (split; [done|]); eauto.
Qed.

(** X6. Over every sequence of events after startup, [led_status_set] is
    only called with a state pattern (Normal, ConnectingToWifi,
    NoWifiConfig, Unpaired) and [led_status_signal] only with Reset or
    Identify, and the persistent pattern is always one of the four state
    patterns. *)
Theorem led_pattern_roles (e : environment) (evs : list event) :
  let w := run evs (boot e) in
  forallb led_call_ok (trace w) = true
  /\ (exists p, led_pattern w = Some p /\ persistent_pattern p = true).
Proof.
  cbv zeta.
  apply (run_invariant (fun w =>
    forallb led_call_ok (trace w) = true
    /\ (exists p, led_pattern w = Some p /\ persistent_pattern p = true))).
  - apply led_roles_dispatch.
  - destruct (boot_counts e) as (_ & _ & _ & _ & _ & _ & _ & ->).
    destruct (boot_state e) as (_ & _ & _ & _ & _ & ->).
    split; [done|]. by destruct (env_wifi_ssid e); eauto.
Qed.

Lemma led_after_init_dispatch (ev : event) (w : world) :
  (initialized w = true -> paired_pattern (led_pattern w) = true) ->
  initialized (exec (dispatch ev) w) = true ->
  paired_pattern (led_pattern (exec (dispatch ev) w)) = true.
Proof.
  dispatch_cases ev w; intros Hw Hini; try discriminate; auto.
Qed.

(** X7. Once the coordinator is initialized the persistent pattern is
    Normal or Unpaired, whatever events follow: no later provisioning event
    brings a Wi-Fi pattern back. *)
Theorem led_after_connected (e : environment) (evs : list event) :
  initialized (run evs (boot e)) = true ->
  led_pattern (run evs (boot e)) = Some mode_normal
  \/ led_pattern (run evs (boot e)) = Some mode_unpaired.
Proof.
  intros Hini.
  assert (Hinv : initialized (run evs (boot e)) = true ->
                 paired_pattern (led_pattern (run evs (boot e))) = true).
  { apply (run_invariant (fun w =>
      initialized w = true -> paired_pattern (led_pattern w) = true)).
    - intros ev w Hw. by apply led_after_init_dispatch.
    - destruct (boot_state e) as (_ & -> & _). discriminate. }
  specialize (Hinv Hini).
  destruct (led_pattern (run evs (boot e))) as [[]|]; try discriminate; auto.
Qed.

Lemma led_tracks_dispatch (ev : event) (w : world) :
  store_event ev = true ->
  (initialized w = true ->
   led_pattern w = Some (if bool_decide (pairings w = ∅) then mode_unpaired
                         else mode_normal)) ->
  let w' := exec (dispatch ev) w in
  initialized w' = true ->
  led_pattern w' = Some (if bool_decide (pairings w' = ∅) then mode_unpaired
                         else mode_normal).
Proof.
  cbv zeta.
  dispatch_branches ev w;
    try (destruct (decide (ps ∖ {[id]} = ∅)) as [He|Hne];
         [rewrite !(bool_decide_eq_true_2 (ps ∖ {[id]} = ∅)) by done
         |rewrite !(bool_decide_eq_false_2 (ps ∖ {[id]} = ∅)) by done];
         run_m);
    intros Hev Hw Hini; try discriminate; auto.
  - by destruct (bool_decide (ps = ∅)).
  - by destruct (bool_decide (ps = ∅)).
  - by rewrite bool_decide_eq_false_2 by set_solver.
  - by rewrite bool_decide_eq_false_2 by set_solver.
  - by rewrite (bool_decide_eq_true_2 _ He).
  - rewrite (bool_decide_eq_false_2 _ Hne), Hw by done.
    rewrite bool_decide_eq_false_2; [done|].
    intros ->. apply Hne, empty_difference_L.
  - by rewrite (bool_decide_eq_true_2 _ He).
  - rewrite (bool_decide_eq_false_2 _ Hne), Hw by done.
    rewrite bool_decide_eq_false_2; [done|].
    intros ->. apply Hne, empty_difference_L.
Qed.


(** X8. When pairing events arrive as the accessory server fires them,
    right after the pairing store changed, and no reset has run, an
    initialized coordinator shows Unpaired exactly when no pairing is
    stored and Normal otherwise. *)
Theorem led_tracks_pairing (e : environment) (evs : list event) :
  forallb store_event evs = true ->
  initialized (run evs (boot e)) = true ->
  led_pattern (run evs (boot e))
  = Some (if bool_decide (pairings (run evs (boot e)) = ∅) then mode_unpaired
          else mode_normal).
Proof.
  assert (Hgen : forall w,
    forallb store_event evs = true ->
    (initialized w = true ->
     led_pattern w = Some (if bool_decide (pairings w = ∅) then mode_unpaired
                           else mode_normal)) ->
    initialized (run evs w) = true ->
    led_pattern (run evs w)
    = Some (if bool_decide (pairings (run evs w) = ∅) then mode_unpaired
            else mode_normal)).
  { induction evs as [|ev evs IH]; intros w Hevs Hw Hini; [by apply Hw|].
    cbn [forallb] in Hevs. apply andb_true_iff in Hevs as [Hev Hevs].
    rewrite run_cons in *. apply IH; [done| |done].
    by apply led_tracks_dispatch. }
  intros Hevs. apply Hgen; [done|].
  destruct (boot_state e) as (_ & -> & _). discriminate.
Qed.

Lemma notify_dispatch (ev : event) (w : world) :
  let w' := exec (dispatch ev) w in
  notifies (trace w')
  = notifies (trace w)
    ++ (if is_single_press ev then [switch_on w'] else []).
Proof.
  cbv zeta.
  dispatch_cases ev w; rewrite ?notifies_app; cbn; by rewrite ?app_nil_r.
Qed.

(** X9. Over every sequence of events from any world, the number of
    outbound notifications grows by the number of single presses: each
    single press notifies once, and no other event notifies. *)
Theorem one_notify_per_press (evs : list event) (w : world) :
  length (notifies (trace (run evs w)))
  = (length (notifies (trace w)) + count_events is_single_press evs)%nat.
Proof.
  revert w. induction evs as [|ev evs IH]; intros w.
  - cbn. lia.
  - rewrite run_cons, IH, notify_dispatch, length_app, count_events_cons.
    destruct (is_single_press ev); cbn; lia.
Qed.


End Interleavings.

(** X11. Two single presses in a row bring the attribute back to its
    value, leave the relay at that value, and notify the toggled value and
    then the original one. *)
Theorem double_toggle (w : world) :
  let press := exec (button_callback button_event_single_press) in
  let w2 := press (press w) in
  switch_on w2 = switch_on w
  /\ relay_output w2 = switch_on w
  /\ notifies (trace w2)
     = notifies (trace w) ++ [negb (switch_on w); switch_on w].
Proof.
  destruct w as [on ini nm gd gl lp ssid ps mac rc ts tr].
  cbv zeta. unfold relay_output. run_m.
  rewrite !notifies_app, negb_involutive. cbn. norm_trace.
  split; [done|]. split; [|done].
  apply (relay_output_insert _ on).
Qed.

(** X12. A double press logs and requests the restart at once, with no
    delay and no erase and no other change.  The restart keeps the stored
    Wi-Fi configuration and pairings, and the restarted process has the
    attribute false and the relay off, whatever the attribute was. *)
Theorem double_press_restart (w : world) :
  let w' := exec (button_callback button_event_double_press) w in
  w' = set_trace
         (trace w ++ [call_printf "Restarting\n" []; call_sdk_system_restart])
         w
  /\ sequencer_steps (trace w') = sequencer_steps (trace w) ++ [step_restart]
  /\ wifi_ssid (reboot w') = wifi_ssid w
  /\ pairings (reboot w') = pairings w
  /\ switch_on (reboot w') = false
  /\ relay_output (reboot w') = false
  /\ initialized (reboot w') = false.
Proof.
  cbv zeta. unfold reboot.
  destruct (boot_state (hardware_of
             (exec (button_callback button_event_double_press) w)))
    as (-> & -> & _).
  destruct (boot_stores (hardware_of
             (exec (button_callback button_event_double_press) w)))
    as (-> & -> & _).
  rewrite boot_relay_output.
  destruct w as [on ini nm gd gl lp ssid ps mac rc ts tr].
  cbv [hardware_of]. run_m.
  norm_trace. rewrite sequencer_steps_app. by repeat split.
Qed.

(** X13. After the reset task has run, in whatever world, the restart
    leads to a process with no Wi-Fi configuration and no pairing, showing
    NoWifiConfig, with the relay off and the coordinator uninitialized; when
    that process gets connected it shows Unpaired. *)
Theorem factory_reset_reboot (TFTP_PORT portTICK_PERIOD_MS : Z) (w : world) :
  let w' := reboot (exec (run_task portTICK_PERIOD_MS task_reset_configuration)
                      w) in
  wifi_ssid w' = None
  /\ pairings w' = ∅
  /\ led_pattern w' = Some mode_no_wifi_config
  /\ relay_output w' = false
  /\ initialized w' = false
  /\ led_pattern
       (exec (on_wifi_config_event TFTP_PORT WIFI_CONFIG_CONNECTED) w')
     = Some mode_unpaired.
Proof.
  cbv zeta. unfold reboot.
  set (h := hardware_of
              (exec (run_task portTICK_PERIOD_MS task_reset_configuration) w)).
  assert (Hssid : env_wifi_ssid h = None) by by destruct w.
  assert (Hps : env_pairings h = ∅) by by destruct w.
  destruct (boot_state h) as (_ & Hini & _ & _ & _ & Hled).
  destruct (boot_stores h) as (Hs & Hp & _).
  rewrite Hssid in *. rewrite Hps in *.
  rewrite boot_relay_output, Hini, Hled, Hs, Hp.
  repeat split.
  rewrite on_wifi_config_event_first by done.
  destruct (boot h) as [on ini nm gd gl lp ssid ps mac rc ts tr].
  cbn in Hp. subst ps. by run_m.
Qed.

Lemma hex_digit_value_hex_digit (n : Z) :
  0 <= n < 16 -> hex_digit_value (hex_digit n) = Some n.
Proof.
  intros Hn.
  assert (Hall : Forall (fun k => hex_digit_value (hex_digit k) = Some k)
                   (seqZ 0 16)) by (repeat constructor).
  rewrite Forall_forall in Hall. apply Hall, elem_of_seqZ. lia.
Qed.

Lemma unhex2_hex2 (b : Z) : unhex2 (hex2 b) = Some (b `mod` 256).
Proof.
  pose proof (Z.mod_pos_bound b 256 eq_refl) as Hb.
  assert (Hhi : 0 <= (b `mod` 256) `div` 16 < 16).
  { split; [apply Z.div_pos; lia|apply Z.div_lt_upper_bound; lia]. }
  assert (Hlo : 0 <= (b `mod` 256) `mod` 16 < 16).
  { apply Z.mod_pos_bound. lia. }
  unfold hex2, unhex2.
  rewrite !hex_digit_value_hex_digit by done. cbn.
  f_equal. symmetry. apply Z.div_mod. lia.
Qed.

(** X14. The two characters that ["%02X"] prints for a byte read back as
    that byte: for every integer the printed text has two characters, both
    upper-case hexadecimal digits, and decodes to the integer modulo 256. *)
Theorem hex2_roundtrip (b : Z) :
  unhex2 (hex2 b) = Some (b `mod` 256)
  /\ String.length (hex2 b) = 2%nat
  /\ (exists hi lo,
        hex2 b = String (hex_digit hi) (String (hex_digit lo) EmptyString)
        /\ 0 <= hi < 16 /\ 0 <= lo < 16).
Proof.
  split; [apply unhex2_hex2|]. split; [reflexivity|].
  exists ((b `mod` 256) `div` 16), ((b `mod` 256) `mod` 16).
  split; [reflexivity|].
  pose proof (Z.mod_pos_bound b 256 eq_refl) as Hb.
  split; [|apply Z.mod_pos_bound; lia].
  split; [apply Z.div_pos; lia|apply Z.div_lt_upper_bound; lia].
Qed.

Lemma hex2_inj (a b : Z) : hex2 a = hex2 b -> a `mod` 256 = b `mod` 256.
Proof.
  intros Heq. apply (f_equal unhex2) in Heq.
  rewrite !unhex2_hex2 in Heq. congruence.
Qed.

(** X15. [create_accessory_name] changes the name only.  The name has 20
    characters for every MAC address, and two devices get the same name
    exactly when the last three bytes of their MAC addresses agree. *)
Theorem accessory_name_identifies_mac (w w' : world) :
  let n := name (exec create_accessory_name w) in
  let n' := name (exec create_accessory_name w') in
  String.length n = 20%nat
  /\ (n = n' <-> mac_suffix (macaddr w) = mac_suffix (macaddr w'))
  /\ exec create_accessory_name w = set_name n w.
Proof.
  destruct w as [on ini nm gd gl lp ssid ps mac rc ts tr].
  destruct w' as [on' ini' nm' gd' gl' lp' ssid' ps' mac' rc' ts' tr'].
  cbv zeta. unfold mac_suffix. run_m.
  split; [reflexivity|]. split; [|reflexivity]. split.
  - intros Heq. cbn in Heq.
    injection Heq as H3h H3l H4h H4l H5h H5l.
    assert (E3 : hex2 (nth 3 mac 0) = hex2 (nth 3 mac' 0))
      by (unfold hex2; congruence).
    assert (E4 : hex2 (nth 4 mac 0) = hex2 (nth 4 mac' 0))
      by (unfold hex2; congruence).
    assert (E5 : hex2 (nth 5 mac 0) = hex2 (nth 5 mac' 0))
      by (unfold hex2; congruence).
    apply hex2_inj in E3, E4, E5. congruence.
  - intros Heq. injection Heq as H3 H4 H5.
    unfold hex2. by rewrite H3, H4, H5.
Qed.

(** X16. Every pattern is a sequence of blinks, an on interval followed by
    an off interval, with the number of blinks its comment states; different
    patterns have different intervals; and Normal and ConnectingToWifi last
    3 seconds, as commented. *)
Theorem led_patterns_well_formed (p q : led_status_pattern_t) :
  blinks (intervals p)
  = Some (match p with
          | mode_normal => 1 | mode_connecting_to_wifi => 2
          | mode_no_wifi_config => 1 | mode_unpaired => 2
          | mode_reset => 3 | mode_identify => 6
          end)%nat
  /\ (intervals p = intervals q <-> p = q)
  /\ period mode_normal = 3000
  /\ period mode_connecting_to_wifi = 3000.
Proof.
  split; [by destruct p|]. split; [|done].
  split; [|by intros ->].
  by destruct p, q.
Qed.

(** ** The further properties on concrete runs *)


Lemma led_after_connected_witness :
  let evs := [ev_wifi_config WIFI_CONFIG_CONNECTED;
              ev_wifi_config WIFI_CONFIG_UNCONFIGURED;
              ev_wifi_config WIFI_CONFIG_CONNECTING] in
  initialized (run 69 10 evs (boot env_fresh)) = true
  /\ (led_pattern (run 69 10 evs (boot env_fresh)) = Some mode_normal
      \/ led_pattern (run 69 10 evs (boot env_fresh)) = Some mode_unpaired).
Proof.
  split; [reflexivity|].
  apply (led_after_connected 69 10 env_fresh). reflexivity.
Defined.

Lemma led_tracks_pairing_witness :
  let evs := [ev_wifi_config WIFI_CONFIG_CONNECTED; ev_pairing_added "A";
              ev_button button_event_single_press] in
  forallb store_event evs = true
  /\ initialized (run 69 10 evs (boot env_fresh)) = true
  /\ led_pattern (run 69 10 evs (boot env_fresh))
     = Some (if bool_decide (pairings (run 69 10 evs (boot env_fresh)) = ∅)
             then mode_unpaired else mode_normal).
Proof.
  split; [reflexivity|]. split; [reflexivity|].
  apply (led_tracks_pairing 69 10 env_fresh); reflexivity.
Defined.

